(** * PyAutoGUI tool gateway: a shallow embedding of [pyautogui-mcp.py]

    Every tool of the gateway is a Python function that forwards to the
    automation backend inside a [try] block and shapes the outcome into a
    dictionary (the result envelope).  The embedding keeps that shape:

    - Python values are the inductive [pyval]; an envelope is a finite map
      from string keys to values;
    - a backend call either returns or raises; exceptions carry their class,
      because the tools catch by class;
    - tools run in a small state-and-exception monad over the process state
      (the two configuration globals and the trace of backend calls).

    Strings are sequences of code points below 256. *)

From Stdlib Require Import ZArith String Ascii List Lia.
From Stdlib Require Import Decimal DecimalString.
From Stdlib Require Import Floats.PrimFloat.
From stdpp Require Import base strings gmap list.

Local Open Scope Z_scope.
Local Open Scope string_scope.

(** ** Python values *)

#[warnings="-register-all"]
Inductive pyval : Type :=
  | VNone
  | VBool (b : bool)
  | VInt (z : Z)
  | VFloat (f : float)
  | VStr (s : string)
  | VList (l : list pyval)
  | VDict (d : gmap string pyval).

(** The result envelope of a tool: a [dict] with string keys. *)
Abbreviation envelope := (gmap string pyval).

(** ** Exceptions and outcomes

    The tools catch by class: [except pyautogui.PyAutoGUIException] takes the
    backend's own exception class and its subclasses (the failsafe exception among
    them), [except Exception] takes every subclass of [Exception], and neither
    takes what derives from [BaseException] only (a keyboard interrupt). *)

Inductive exn : Type :=
  | PyAutoGUIException (msg : string)
  | ValueError (msg : string)
  | OtherException (msg : string)
  | BaseExceptionOnly (msg : string).

(** [str(e)] *)
Definition exn_str (e : exn) : string :=
  match e with
  | PyAutoGUIException m | ValueError m | OtherException m
  | BaseExceptionOnly m => m
  end.

(** [isinstance(e, pyautogui.PyAutoGUIException)] *)
Definition is_PyAutoGUIException (e : exn) : bool :=
  match e with
  | PyAutoGUIException _ => true
  | _ => false
  end.

(** [isinstance(e, Exception)] *)
Definition is_Exception (e : exn) : bool :=
  match e with
  | BaseExceptionOnly _ => false
  | _ => true
  end.

(** What evaluating a Python expression or call ends in. *)
Inductive outcome (A : Type) : Type :=
  | Returns (a : A)
  | Raises (e : exn).

Arguments Returns {A} a.
Arguments Raises {A} e.

(** ** Pieces of the Python runtime the tools rely on *)

Module Py.

(** [str(z)] for an [int]. *)
Definition str_int (z : Z) : string := NilZero.string_of_int (Z.to_int z).

(** [f"{v}"] for an [Optional[int]]. *)
Definition str_opt_int (v : option Z) : string :=
  match v with
  | Some z => str_int z
  | None => "None"
  end.

Definition opt_int (v : option Z) : pyval :=
  match v with
  | Some z => VInt z
  | None => VNone
  end.

Definition opt_str (v : option string) : pyval :=
  match v with
  | Some s => VStr s
  | None => VNone
  end.

Definition int_list (l : list Z) : pyval := VList (VInt <$> l).

Definition str_list (l : list string) : pyval := VList (VStr <$> l).

Definition opt_int_list (v : option (list Z)) : pyval :=
  match v with
  | Some l => int_list l
  | None => VNone
  end.

(** [len(l)] *)
Definition len {A} (l : list A) : Z := Z.of_nat (length l).

(** *** Characters *)

Definition ord (c : ascii) : Z := Z.of_nat (nat_of_ascii c).

Definition chr (z : Z) : ascii := ascii_of_nat (Z.to_nat z).

Definition mem_char (c : ascii) (cs : string) : bool :=
  existsb (Ascii.eqb c) (list_ascii_of_string cs).

(** [str.isspace] on one character (code points below 256). *)
Definition is_space (c : ascii) : bool :=
  let n := ord c in
  (((9 <=? n) && (n <=? 13)) || ((28 <=? n) && (n <=? 32))
   || (n =? 133) || (n =? 160))%Z.

(** *** Stripping, splitting, slicing *)

(** [s.lstrip(chars)] with the set of characters given as a predicate. *)
Fixpoint lstrip_by (p : ascii → bool) (s : string) : string :=
  match s with
  | EmptyString => EmptyString
  | String c r => if p c then lstrip_by p r else s
  end.

Fixpoint rstrip_by (p : ascii → bool) (s : string) : string :=
  match s with
  | EmptyString => EmptyString
  | String c r =>
      match rstrip_by p r with
      | EmptyString => if p c then EmptyString else String c EmptyString
      | r' => String c r'
      end
  end.

Definition strip_by (p : ascii → bool) (s : string) : string :=
  rstrip_by p (lstrip_by p s).

(** [s.lstrip(chars)], [s.strip(chars)], [s.strip()] *)
Definition lstrip (chars s : string) : string :=
  lstrip_by (λ c, mem_char c chars) s.

Definition strip (chars s : string) : string :=
  strip_by (λ c, mem_char c chars) s.

Definition strip_ws (s : string) : string := strip_by is_space s.

(** [s.startswith(p)] *)
Definition startswith (p s : string) : bool := String.prefix p s.

Definition endswith (p s : string) : bool :=
  String.prefix (String.rev p) (String.rev s).

(** [s.split(sep)] for a one-character separator: never empty. *)
Fixpoint split (sep : ascii) (s : string) : list string :=
  match s with
  | EmptyString => [EmptyString]
  | String c r =>
      if Ascii.eqb c sep then EmptyString :: split sep r
      else match split sep r with
           | [] => [String c EmptyString]
           | w :: ws => String c w :: ws
           end
  end.

(** [s[i:j]] and [s[i:]] for non-negative indices. *)
Definition slice (i j : nat) (s : string) : string :=
  substring i (j - i) s.

Definition slice_from (i : nat) (s : string) : string :=
  substring i (String.length s - i) s.

(** [sep.join(l)] *)
Definition join (sep : string) (l : list string) : string :=
  String.concat sep l.

(** [s.rfind(c)] for a one-character needle: highest index, or -1. *)
Fixpoint rfind_from (c : ascii) (s : string) (i last : Z) : Z :=
  match s with
  | EmptyString => last
  | String d r => rfind_from c r (i + 1) (if Ascii.eqb d c then i else last)
  end.

Definition rfind (c : ascii) (s : string) : Z := rfind_from c s 0 (-1).

(** *** Formatting *)

Definition hex_digit (n : Z) : ascii :=
  chr (if (n <? 10)%Z then 48 + n else 87 + n).

(** Lower-case hexadecimal digits of a non-negative number, most significant
    first; [fuel] bounds the number of digits. *)
Fixpoint hex_digits (fuel : nat) (n : Z) (acc : string) : string :=
  match fuel with
  | O => acc
  | S fuel' =>
      let acc' := String (hex_digit (n mod 16)) acc in
      if (n / 16 =? 0)%Z then acc' else hex_digits fuel' (n / 16) acc'
  end.

Definition hex_abs (z : Z) : string :=
  hex_digits (S (Z.to_nat (Z.log2 (Z.abs z)))) (Z.abs z) EmptyString.

(** [f"{z:02x}"]: sign first, then zero padding up to a total width of 2. *)
Definition format_02x (z : Z) : string :=
  if (z <? 0)%Z then "-" +:+ hex_abs z
  else if (z <? 16)%Z then "0" +:+ hex_abs z
  else hex_abs z.

(** [repr(s)] for a [str]. *)
Definition dquote : ascii := "034".
Definition squote : ascii := "039".
Definition backslash : ascii := "092".

Definition is_printable (c : ascii) : bool :=
  let n := ord c in
  (((32 <=? n) && (n <=? 126)) || ((161 <=? n) && negb (n =? 173)))%Z.

Definition repr_char (q c : ascii) : string :=
  if Ascii.eqb c q || Ascii.eqb c backslash then String backslash (String c EmptyString)
  else if (ord c =? 9)%Z then String backslash "t"
  else if (ord c =? 10)%Z then String backslash "n"
  else if (ord c =? 13)%Z then String backslash "r"
  else if is_printable c then String c EmptyString
  else String backslash
         (String "x" (String (hex_digit (ord c / 16))
                        (String (hex_digit (ord c mod 16)) EmptyString))).

Fixpoint repr_body (q : ascii) (s : string) : string :=
  match s with
  | EmptyString => EmptyString
  | String c r => repr_char q c +:+ repr_body q r
  end.

Definition repr (s : string) : string :=
  let q := if mem_char squote s && negb (mem_char dquote s)
           then dquote else squote in
  String q (repr_body q s +:+ String q EmptyString).

(** *** [int(s, base)] for a [str]

    Leading and trailing whitespace is skipped, a sign may follow, base 16
    admits a [0x] prefix (and one underscore after it), and the digits may
    be separated by single underscores.  Base 10 refuses more than
    [int_max_str_digits] digits.  Anything else is a [ValueError]. *)

Definition is_int_space (c : ascii) : bool :=
  let n := ord c in
  (((9 <=? n) && (n <=? 13)) || (n =? 32) || (n =? 133) || (n =? 160))%Z.

Definition digit_value (c : ascii) : option Z :=
  let n := ord c in
  if ((48 <=? n) && (n <=? 57))%Z then Some (n - 48)
  else if ((97 <=? n) && (n <=? 122))%Z then Some (n - 87)
  else if ((65 <=? n) && (n <=? 90))%Z then Some (n - 55)
  else None.

(** The run of digits: value so far, number of digits, and what follows;
    [None] on a doubled or trailing underscore. *)
Fixpoint scan_digits (base : Z) (s : string) (prev_underscore : bool)
    (acc : Z) (n : nat) : option (Z * nat * string) :=
  match s with
  | EmptyString => if prev_underscore then None else Some (acc, n, s)
  | String c r =>
      if Ascii.eqb c "_" then
        if prev_underscore then None else scan_digits base r true acc n
      else
        match digit_value c with
        | Some d =>
            if (d <? base)%Z then scan_digits base r false (acc * base + d) (S n)
            else if prev_underscore then None else Some (acc, n, s)
        | None => if prev_underscore then None else Some (acc, n, s)
        end
  end.

Definition skip_sign (s : string) : Z * string :=
  match s with
  | String "+" r => (1, r)
  | String "-" r => (-1, r)
  | _ => (1, s)
  end.

Definition skip_prefix (base : Z) (s : string) : string :=
  match s with
  | String "0" (String c r) =>
      if (base =? 16)%Z && (Ascii.eqb c "x" || Ascii.eqb c "X") then
        match r with
        | String "_" r' => r'
        | _ => r
        end
      else s
  | _ => s
  end.

Definition int_max_str_digits : nat := 4300.

Definition invalid_literal (base : Z) (s : string) : exn :=
  ValueError ("invalid literal for int() with base " +:+ str_int base
              +:+ ": " +:+ substring 0 200 (repr s)).

Definition exceeds_limit (n : nat) : exn :=
  ValueError ("Exceeds the limit (" +:+ str_int (Z.of_nat int_max_str_digits)
              +:+ " digits) for integer string conversion: value has "
              +:+ str_int (Z.of_nat n)
              +:+ " digits; use sys.set_int_max_str_digits() to increase the limit").

Definition int (base : Z) (s : string) : outcome Z :=
  let '(sign, s1) := skip_sign (lstrip_by is_int_space s) in
  let s2 := skip_prefix base s1 in
  if startswith "_" s2 then Raises (invalid_literal base s) else
  match scan_digits base s2 false 0 0 with
  | None => Raises (invalid_literal base s)
  | Some (v, n, rest) =>
      if (base =? 10)%Z && (int_max_str_digits <? n)%nat then Raises (exceeds_limit n)
      else if (n =? 0)%nat then Raises (invalid_literal base s)
      else
        match lstrip_by is_int_space rest with
        | EmptyString => Returns (sign * v)
        | _ => Raises (invalid_literal base s)
        end
  end.

(** *** [base64.b64encode(data).decode("utf-8")] *)

Definition b64_alphabet : string :=
  "ABCDEFGHIJKLMNOPQRSTUVWXYZabcdefghijklmnopqrstuvwxyz0123456789+/".

Definition b64_char (n : Z) : ascii :=
  match String.get (Z.to_nat n) b64_alphabet with
  | Some c => c
  | None => "="%char
  end.

Fixpoint b64_groups (bs : list Z) : string :=
  match bs with
  | [] => EmptyString
  | [a] =>
      String (b64_char (a / 4)) (String (b64_char (a mod 4 * 16)) "==")
  | [a; b] =>
      String (b64_char (a / 4))
        (String (b64_char (a mod 4 * 16 + b / 16))
           (String (b64_char (b mod 16 * 4)) "="))
  | a :: b :: c :: r =>
      String (b64_char (a / 4))
        (String (b64_char (a mod 4 * 16 + b / 16))
           (String (b64_char (b mod 16 * 4 + c / 64))
              (String (b64_char (c mod 64)) (b64_groups r))))
  end.

Definition b64encode (data : string) : string :=
  b64_groups (ord <$> list_ascii_of_string data).

End Py.

(** ** [os.path] (POSIX flavour) *)

Module os_path.

(** [i = p.rfind(sep) + 1; return p[i:]] *)
Definition basename (p : string) : string :=
  let i := (Py.rfind "/" p + 1)%Z in
  Py.slice_from (Z.to_nat i) p.

(** [os.path.join(a, b)]: an absolute [b] replaces [a]; a separator is
    inserted unless [a] is empty or already ends in one. *)
Definition join (a b : string) : string :=
  if Py.startswith "/" b then b
  else if String.eqb a EmptyString || Py.endswith "/" a then a +:+ b
  else a +:+ "/" +:+ b.

End os_path.

(** ** Truthiness *)

Definition truthy_str (s : string) : bool := negb (String.eqb s EmptyString).

Definition truthy_opt_str (v : option string) : bool :=
  match v with
  | Some s => truthy_str s
  | None => false
  end.

Definition truthy_opt_list {A} (v : option (list A)) : bool :=
  match v with
  | Some (_ :: _) => true
  | _ => false
  end.

(** ** What the backend hands back *)

Module Box.
Record t := mk { left : Z; top : Z; width : Z; height : Z }.
End Box.

Module Point.
Record t := mk { x : Z; y : Z }.
End Point.

Module Window.
Record t := mk { title : string; left : Z; top : Z; width : Z; height : Z }.
End Window.

(** A captured image; the gateway never looks inside. *)
Record Image := { image_id : N }.

(** ** Calls that leave the gateway

    One constructor per function of the automation library that a tool calls,
    with the arguments as the tool passes them.  The last three are the image
    object's [save] (to a PNG buffer, to a path) and [os.makedirs]. *)

Module pyautogui.

Inductive call : Type :=
  | moveTo (x y : Z) (duration : float)
  | moveRel (dx dy : Z) (duration : float)
  | click (x y : option Z) (clicks : Z) (interval : float) (button : string)
  | doubleClick (x y : option Z) (button : string)
  | rightClick (x y : option Z)
  | dragTo (x y : Z) (duration : float) (button : string)
  | dragRel (dx dy : Z) (duration : float) (button : string)
  | scroll (clicks : Z) (x y : option Z)
  | position
  | write (text : string) (interval : float)
  | press (key : string)
  | keyDown (key : string)
  | keyUp (key : string)
  | hotkey (keys : list string)
  | screenshot (region : option (list Z))
  | locateOnScreen (image_path : string) (region : option (list Z)) (confidence : float)
  | locateCenterOnScreen (image_path : string) (region : option (list Z)) (confidence : float)
  | pixel (x y : Z)
  | pixelMatchesColor (x y : Z) (rgb : list Z) (tolerance : Z)
  | size
  | getActiveWindowTitle
  | getAllTitles
  | getWindowsWithTitle (title_fragment : string)
  | alert (message title : string)
  | confirm (message title : string) (options : option (list string))
  | prompt (message title default : string)
  | password (message title mask : string)
  | countdown (seconds : Z)
  | displayMousePosition (seconds : Z)
  | img_save_png (img : Image)
  | img_save (img : Image) (path : string)
  | makedirs (path : string).

(** The type of what each call returns. *)
Definition ret (c : call) : Type :=
  match c with
  | position | size => (Z * Z)%type
  | screenshot _ => Image
  | locateOnScreen _ _ _ => option Box.t
  | locateCenterOnScreen _ _ _ => option Point.t
  | pixel _ _ => (Z * Z * Z)%type
  | pixelMatchesColor _ _ _ _ => bool
  | getActiveWindowTitle => option string
  | getAllTitles => list string
  | getWindowsWithTitle _ => list Window.t
  | alert _ _ | confirm _ _ _ | prompt _ _ _ | password _ _ _ => option string
  | img_save_png _ => string
  | _ => unit
  end.

End pyautogui.

(** ** Process state and the tool monad *)

(** A call that was made, and the exception it ended in, if any. *)
Record event := mkEvent {
  ev_call : pyautogui.call;
  ev_raised : option exn
}.

(** The two configuration globals of the automation library and the calls made
    so far, oldest first. *)
Record World := mkWorld {
  FAILSAFE : bool;
  PAUSE : float;
  trace : list event
}.

(** The backend is a black box: how it answers a call may depend on the
    process state and on the call, nothing else is assumed. *)
Definition Backend : Type := World → ∀ c : pyautogui.call, outcome (pyautogui.ret c).

Definition M (A : Type) : Type := World → outcome A * World.

#[global] Instance outcome_ret : MRet outcome := λ A a, Returns a.

#[global] Instance outcome_bind : MBind outcome := λ A B f m,
  match m with
  | Returns a => f a
  | Raises e => Raises e
  end.

#[global] Instance M_ret : MRet M := λ A a w, (Returns a, w).

#[global] Instance M_bind : MBind M := λ A B f m w,
  match m w with
  | (Returns a, w') => f a w'
  | (Raises e, w') => (Raises e, w')
  end.

(** A pure computation that may raise, run inside a tool. *)
Definition lift {A} (o : outcome A) : M A := λ w, (o, w).

(** Read a configuration global. *)
Definition read {A} (f : World → A) : M A := λ w, (Returns (f w), w).

(** Make a call: the backend answers, the call is recorded. *)
Definition raised {A} (o : outcome A) : option exn :=
  match o with
  | Returns _ => None
  | Raises e => Some e
  end.

Definition record (c : pyautogui.call) (r : option exn) (w : World) : World :=
  mkWorld (FAILSAFE w) (PAUSE w) (trace w ++ [mkEvent c r]).

Definition invoke (be : Backend) (c : pyautogui.call) : M (pyautogui.ret c) :=
  λ w, (be w c, record c (raised (be w c)) w).

(** [try: body  except <class> as e: handler e] *)
Definition try_except {A} (body : M A) (catches : exn → bool)
    (handler : exn → M A) : M A :=
  λ w,
    match body w with
    | (Returns a, w') => (Returns a, w')
    | (Raises e, w') => if catches e then handler e w' else (Raises e, w')
    end.

(** [tuple(f(v) for v in l)]: left to right, the first exception ends it. *)
Fixpoint tuple_of {A B} (f : A → outcome B) (l : list A) : outcome (list B) :=
  match l with
  | [] => Returns []
  | v :: l' => b ← f v; bs ← tuple_of f l'; mret (b :: bs)
  end.

(** ** The tools *)

Section Tools.

Variable be : Backend.

Abbreviation call c := (invoke be c).

(** [return {"error": str(e)}] *)
Definition error_envelope (e : exn) : M envelope :=
  mret {[ "error" := VStr (exn_str e) ]}.

(** *** Mouse control *)

Definition move_mouse (x y : Z) (duration : float) : M envelope :=
  try_except
    (_ ← call (pyautogui.moveTo x y duration);
     mret {[ "x" := VInt x; "y" := VInt y;
             "message" := VStr ("Mouse moved to (" +:+ Py.str_int x +:+ ", "
                                +:+ Py.str_int y +:+ ")") ]})
    is_PyAutoGUIException error_envelope.

Definition move_mouse_relative (dx dy : Z) (duration : float) : M envelope :=
  try_except
    (_ ← call (pyautogui.moveRel dx dy duration);
     mret {[ "dx" := VInt dx; "dy" := VInt dy;
             "message" := VStr ("Mouse moved relative by (" +:+ Py.str_int dx
                                +:+ ", " +:+ Py.str_int dy +:+ ")") ]})
    is_PyAutoGUIException error_envelope.

Definition click (x y : option Z) (clicks : Z) (interval : float)
    (button : string) : M envelope :=
  try_except
    (_ ← call (pyautogui.click x y clicks interval button);
     let click_location :=
       match x, y with
       | Some _, Some _ =>
           "at (" +:+ Py.str_opt_int x +:+ ", " +:+ Py.str_opt_int y +:+ ")"
       | _, _ => "at current mouse position"
       end in
     mret {[ "x" := Py.opt_int x; "y" := Py.opt_int y;
             "clicks" := VInt clicks; "button" := VStr button;
             "message" := VStr ("Clicked " +:+ button +:+ " button "
                                +:+ Py.str_int clicks +:+ " time(s) "
                                +:+ click_location) ]})
    is_PyAutoGUIException error_envelope.

Definition double_click (x y : option Z) (button : string) : M envelope :=
  try_except
    (_ ← call (pyautogui.doubleClick x y button);
     mret {[ "x" := Py.opt_int x; "y" := Py.opt_int y; "button" := VStr button;
             "message" := VStr ("Double-clicked " +:+ button +:+ " button") ]})
    is_PyAutoGUIException error_envelope.

Definition right_click (x y : option Z) : M envelope :=
  try_except
    (_ ← call (pyautogui.rightClick x y);
     mret {[ "x" := Py.opt_int x; "y" := Py.opt_int y;
             "message" := VStr "Right-clicked" ]})
    is_PyAutoGUIException error_envelope.

Definition drag_to (x y : Z) (duration : float) (button : string) : M envelope :=
  try_except
    (_ ← call (pyautogui.dragTo x y duration button);
     mret {[ "x" := VInt x; "y" := VInt y; "duration" := VFloat duration;
             "message" := VStr ("Dragged to (" +:+ Py.str_int x +:+ ", "
                                +:+ Py.str_int y +:+ ")") ]})
    is_PyAutoGUIException error_envelope.

Definition drag_relative (dx dy : Z) (duration : float) (button : string)
    : M envelope :=
  try_except
    (_ ← call (pyautogui.dragRel dx dy duration button);
     mret {[ "dx" := VInt dx; "dy" := VInt dy;
             "message" := VStr ("Dragged relative by (" +:+ Py.str_int dx
                                +:+ ", " +:+ Py.str_int dy +:+ ")") ]})
    is_PyAutoGUIException error_envelope.

Definition scroll (clicks : Z) (x y : option Z) : M envelope :=
  try_except
    (_ ← call (pyautogui.scroll clicks x y);
     mret {[ "clicks" := VInt clicks; "x" := Py.opt_int x; "y" := Py.opt_int y;
             "message" := VStr ("Scrolled " +:+ Py.str_int clicks +:+ " clicks") ]})
    is_PyAutoGUIException error_envelope.

Definition get_mouse_position : M envelope :=
  try_except
    ('(x, y) ← call pyautogui.position;
     mret {[ "x" := VInt x; "y" := VInt y ]})
    is_PyAutoGUIException error_envelope.

(** *** Keyboard *)

Definition type_text (text : string) (interval : float) : M envelope :=
  try_except
    (_ ← call (pyautogui.write text interval);
     mret {[ "text" := VStr text;
             "message" := VStr ("Typed text: " +:+ Py.slice 0 50 text +:+ "...") ]})
    is_PyAutoGUIException error_envelope.

Definition press_key (key : string) : M envelope :=
  try_except
    (_ ← call (pyautogui.press key);
     mret {[ "key" := VStr key; "message" := VStr ("Pressed key: " +:+ key) ]})
    is_PyAutoGUIException error_envelope.

Definition key_down (key : string) : M envelope :=
  try_except
    (_ ← call (pyautogui.keyDown key);
     mret {[ "key" := VStr key; "message" := VStr ("Key held down: " +:+ key) ]})
    is_PyAutoGUIException error_envelope.

Definition key_up (key : string) : M envelope :=
  try_except
    (_ ← call (pyautogui.keyUp key);
     mret {[ "key" := VStr key; "message" := VStr ("Key released: " +:+ key) ]})
    is_PyAutoGUIException error_envelope.

Definition hotkey (keys : list string) : M envelope :=
  try_except
    (_ ← call (pyautogui.hotkey keys);
     mret {[ "keys" := Py.str_list keys;
             "message" := VStr ("Pressed hotkey: " +:+ Py.join "+" keys) ]})
    is_PyAutoGUIException error_envelope.

(** *** Screen capture *)

Definition screenshot (filename : option string) (region : option (list Z))
    : M envelope :=
  try_except
    (img ← call (pyautogui.screenshot region);
     match filename with
     | None =>
         buffered ← call (pyautogui.img_save_png img);
         let img_str := Py.b64encode buffered in
         mret {[ "message" := VStr "Screenshot taken";
                 "region" := Py.opt_int_list region;
                 "image_base64" := VStr img_str ]}
     | Some filename =>
         let screenshots_dir := "screenshots" in
         _ ← call (pyautogui.makedirs screenshots_dir);
         let safe_filename := os_path.basename filename in
         let save_path := os_path.join screenshots_dir safe_filename in
         _ ← call (pyautogui.img_save img save_path);
         mret {[ "filename" := VStr save_path;
                 "region" := Py.opt_int_list region;
                 "message" := VStr ("Screenshot saved to " +:+ save_path) ]}
     end)
    is_PyAutoGUIException error_envelope.

Definition locate_on_screen (image_path : string) (region : option (list Z))
    (confidence : float) : M envelope :=
  try_except
    (pos ← (if truthy_opt_list region
            then call (pyautogui.locateOnScreen image_path region confidence)
            else call (pyautogui.locateOnScreen image_path None confidence));
     match pos with
     | Some pos =>
         mret {[ "found" := VBool true;
                 "left" := VInt (Box.left pos); "top" := VInt (Box.top pos);
                 "width" := VInt (Box.width pos);
                 "height" := VInt (Box.height pos);
                 "message" := VStr ("Found image at (" +:+ Py.str_int (Box.left pos)
                                    +:+ ", " +:+ Py.str_int (Box.top pos) +:+ ")") ]}
     | None =>
         mret {[ "found" := VBool false;
                 "message" := VStr "Image not found on screen" ]}
     end)
    is_Exception
    (λ e, mret {[ "found" := VBool false; "error" := VStr (exn_str e);
                  "message" := VStr ("Error finding image: " +:+ exn_str e) ]}).

Definition locate_center_on_screen (image_path : string)
    (region : option (list Z)) (confidence : float) : M envelope :=
  try_except
    (pos ← (if truthy_opt_list region
            then call (pyautogui.locateCenterOnScreen image_path region confidence)
            else call (pyautogui.locateCenterOnScreen image_path None confidence));
     match pos with
     | Some pos =>
         mret {[ "found" := VBool true;
                 "x" := VInt (Point.x pos); "y" := VInt (Point.y pos);
                 "message" := VStr ("Found image center at ("
                                    +:+ Py.str_int (Point.x pos) +:+ ", "
                                    +:+ Py.str_int (Point.y pos) +:+ ")") ]}
     | None =>
         mret {[ "found" := VBool false;
                 "message" := VStr "Image not found on screen" ]}
     end)
    is_Exception
    (λ e, mret {[ "found" := VBool false; "error" := VStr (exn_str e);
                  "message" := VStr ("Error finding image: " +:+ exn_str e) ]}).

Definition get_pixel_color (x y : Z) : M envelope :=
  try_except
    ('(r, g, b) ← call (pyautogui.pixel x y);
     mret {[ "x" := VInt x; "y" := VInt y;
             "r" := VInt r; "g" := VInt g; "b" := VInt b;
             "hex" := VStr ("#" +:+ Py.format_02x r +:+ Py.format_02x g
                            +:+ Py.format_02x b) ]})
    is_PyAutoGUIException error_envelope.

(** The value bound to [rgb_tuple] in [pixel_matches_color], or the exception
    raised on the way. *)
Definition rgb_tuple (color : string) : outcome (list Z) :=
  if Py.startswith "#" color then
    let hex_color := Py.lstrip "#" color in
    if (String.length hex_color =? 6)%nat then
      tuple_of (λ i, Py.int 16 (Py.slice i (i + 2) hex_color)) [0; 2; 4]%nat
    else Raises (ValueError "Hex color must be in #RRGGBB format.")
  else if Py.startswith "(" color then
    let color_values := Py.split "," (Py.strip "() " color) in
    if (length color_values =? 3)%nat then
      tuple_of (λ c, Py.int 10 (Py.strip_ws c)) color_values
    else Raises (ValueError "RGB color must be a tuple/list of 3 integers.")
  else Raises (ValueError "Invalid color format. Use '#RRGGBB' or '(R, G, B)'.").

Definition pixel_matches_color (x y : Z) (color : string) (tolerance : Z)
    : M envelope :=
  try_except
    (rgb ← lift (rgb_tuple color);
     matches ← call (pyautogui.pixelMatchesColor x y rgb tolerance);
     mret {[ "x" := VInt x; "y" := VInt y; "color" := VStr color;
             "matches" := VBool matches ]})
    is_Exception
    (λ e, mret {[ "error" := VStr ("Failed to process color '" +:+ color
                                   +:+ "': " +:+ exn_str e) ]}).

(** *** Window management *)

Definition get_screen_size : M envelope :=
  try_except
    ('(width, height) ← call pyautogui.size;
     mret {[ "width" := VInt width; "height" := VInt height ]})
    is_PyAutoGUIException error_envelope.

Definition get_active_window_title : M envelope :=
  try_except
    (title ← call pyautogui.getActiveWindowTitle;
     mret {[ "title" := if truthy_opt_str title then Py.opt_str title
                        else VStr "None" ]})
    is_PyAutoGUIException
    (λ e, mret {[ "title" := VNone; "error" := VStr (exn_str e) ]}).

Definition get_all_window_titles : M envelope :=
  try_except
    (titles ← call pyautogui.getAllTitles;
     mret {[ "titles" := Py.str_list titles; "count" := VInt (Py.len titles) ]})
    is_PyAutoGUIException
    (λ e, mret {[ "titles" := VList []; "count" := VInt 0;
                  "error" := VStr (exn_str e) ]}).

(** One entry of the comprehension in [get_windows_with_title]. *)
Definition window_entry (win : Window.t) : pyval :=
  VDict {[ "title" := VStr (Window.title win);
           "left" := VInt (Window.left win); "top" := VInt (Window.top win);
           "width" := VInt (Window.width win);
           "height" := VInt (Window.height win) ]}.

Definition get_windows_with_title (title_fragment : string) : M envelope :=
  try_except
    (windows ← call (pyautogui.getWindowsWithTitle title_fragment);
     let result := window_entry <$> windows in
     mret {[ "windows" := VList result; "count" := VInt (Py.len result) ]})
    is_PyAutoGUIException
    (λ e, mret {[ "windows" := VList []; "count" := VInt 0;
                  "error" := VStr (exn_str e) ]}).

(** *** User interaction *)

Definition alert (message title : string) : M envelope :=
  try_except
    (result ← call (pyautogui.alert message title);
     mret {[ "message" := VStr message; "title" := VStr title;
             "result" := Py.opt_str result ]})
    is_PyAutoGUIException error_envelope.

Definition confirm (message title : string) (options : option (list string))
    : M envelope :=
  try_except
    (result ← (if truthy_opt_list options
               then call (pyautogui.confirm message title options)
               else call (pyautogui.confirm message title None));
     mret {[ "message" := VStr message; "title" := VStr title;
             "options" := Py.str_list (match options with
                                       | Some (o :: os) => o :: os
                                       | _ => ["OK"; "Cancel"]
                                       end);
             "result" := Py.opt_str result ]})
    is_PyAutoGUIException error_envelope.

Definition prompt (message title default : string) : M envelope :=
  try_except
    (result ← call (pyautogui.prompt message title default);
     mret {[ "message" := VStr message; "title" := VStr title;
             "default" := VStr default; "result" := Py.opt_str result ]})
    is_PyAutoGUIException error_envelope.

Definition password (message title mask : string) : M envelope :=
  try_except
    (result ← call (pyautogui.password message title mask);
     mret {[ "message" := VStr message; "title" := VStr title;
             "mask" := VStr mask;
             "result" := if truthy_opt_str result then VStr "[REDACTED]"
                         else VNone ]})
    is_PyAutoGUIException error_envelope.

(** *** Utilities *)

Definition countdown (seconds : Z) : M envelope :=
  try_except
    (_ ← call (pyautogui.countdown seconds);
     mret {[ "seconds" := VInt seconds;
             "message" := VStr ("Countdown completed for " +:+ Py.str_int seconds
                                +:+ " seconds") ]})
    is_PyAutoGUIException error_envelope.

Definition display_mouse_position (seconds : Z) : M envelope :=
  try_except
    (_ ← call (pyautogui.displayMousePosition seconds);
     mret {[ "seconds" := VInt seconds;
             "message" := VStr ("Mouse position displayed for "
                                +:+ Py.str_int seconds +:+ " seconds") ]})
    is_PyAutoGUIException error_envelope.

(** No [try] here, and no call: the flag is read and reported. *)
Definition fail_safe_check : M envelope :=
  enabled ← read FAILSAFE;
  mret {[ "enabled" := VBool enabled;
          "message" := VStr (if enabled then "Failsafe enabled"
                             else "Failsafe disabled") ]}.

End Tools.

(** ** The catalogue: one request per tool *)

Inductive tool : Type :=
  | Move_mouse (x y : Z) (duration : float)
  | Move_mouse_relative (dx dy : Z) (duration : float)
  | Click (x y : option Z) (clicks : Z) (interval : float) (button : string)
  | Double_click (x y : option Z) (button : string)
  | Right_click (x y : option Z)
  | Drag_to (x y : Z) (duration : float) (button : string)
  | Drag_relative (dx dy : Z) (duration : float) (button : string)
  | Scroll (clicks : Z) (x y : option Z)
  | Get_mouse_position
  | Type_text (text : string) (interval : float)
  | Press_key (key : string)
  | Key_down (key : string)
  | Key_up (key : string)
  | Hotkey (keys : list string)
  | Screenshot (filename : option string) (region : option (list Z))
  | Locate_on_screen (image_path : string) (region : option (list Z)) (confidence : float)
  | Locate_center_on_screen (image_path : string) (region : option (list Z)) (confidence : float)
  | Get_pixel_color (x y : Z)
  | Pixel_matches_color (x y : Z) (color : string) (tolerance : Z)
  | Get_screen_size
  | Get_active_window_title
  | Get_all_window_titles
  | Get_windows_with_title (title_fragment : string)
  | Alert (message title : string)
  | Confirm (message title : string) (options : option (list string))
  | Prompt (message title default : string)
  | Password (message title mask : string)
  | Countdown (seconds : Z)
  | Display_mouse_position (seconds : Z)
  | Fail_safe_check.

Definition run (be : Backend) (t : tool) : M envelope :=
  match t with
  | Move_mouse x y duration => move_mouse be x y duration
  | Move_mouse_relative dx dy duration => move_mouse_relative be dx dy duration
  | Click x y clicks interval button => click be x y clicks interval button
  | Double_click x y button => double_click be x y button
  | Right_click x y => right_click be x y
  | Drag_to x y duration button => drag_to be x y duration button
  | Drag_relative dx dy duration button => drag_relative be dx dy duration button
  | Scroll clicks x y => scroll be clicks x y
  | Get_mouse_position => get_mouse_position be
  | Type_text text interval => type_text be text interval
  | Press_key key => press_key be key
  | Key_down key => key_down be key
  | Key_up key => key_up be key
  | Hotkey keys => hotkey be keys
  | Screenshot filename region => screenshot be filename region
  | Locate_on_screen image_path region confidence =>
      locate_on_screen be image_path region confidence
  | Locate_center_on_screen image_path region confidence =>
      locate_center_on_screen be image_path region confidence
  | Get_pixel_color x y => get_pixel_color be x y
  | Pixel_matches_color x y color tolerance =>
      pixel_matches_color be x y color tolerance
  | Get_screen_size => get_screen_size be
  | Get_active_window_title => get_active_window_title be
  | Get_all_window_titles => get_all_window_titles be
  | Get_windows_with_title title_fragment => get_windows_with_title be title_fragment
  | Alert message title => alert be message title
  | Confirm message title options => confirm be message title options
  | Prompt message title default => prompt be message title default
  | Password message title mask => password be message title mask
  | Countdown seconds => countdown be seconds
  | Display_mouse_position seconds => display_mouse_position be seconds
  | Fail_safe_check => fail_safe_check
  end.

(** ** Process start

    [pyautogui.FAILSAFE = True] and [pyautogui.PAUSE = 0.1], nothing called yet. *)

#[warnings="-inexact-float"]
Definition startup : World := mkWorld true 0.1%float [].

(** ** Backends to run the tools against *)

Definition default_ret (c : pyautogui.call) : pyautogui.ret c :=
  match c with
  | pyautogui.position => (0, 0)
  | pyautogui.size => (1920, 1080)
  | pyautogui.screenshot _ => {| image_id := 0 |}
  | pyautogui.locateOnScreen _ _ _ => None
  | pyautogui.locateCenterOnScreen _ _ _ => None
  | pyautogui.pixel _ _ => (0, 0, 0)
  | pyautogui.pixelMatchesColor _ _ _ _ => false
  | pyautogui.getActiveWindowTitle => None
  | pyautogui.getAllTitles => []
  | pyautogui.getWindowsWithTitle _ => []
  | pyautogui.alert _ _ => Some "OK"
  | pyautogui.confirm _ _ _ => Some "OK"
  | pyautogui.prompt _ _ _ => None
  | pyautogui.password _ _ _ => None
  | pyautogui.img_save_png _ => EmptyString
  | pyautogui.moveTo _ _ _ | pyautogui.moveRel _ _ _
  | pyautogui.click _ _ _ _ _ | pyautogui.doubleClick _ _ _
  | pyautogui.rightClick _ _ | pyautogui.dragTo _ _ _ _
  | pyautogui.dragRel _ _ _ _ | pyautogui.scroll _ _ _
  | pyautogui.write _ _ | pyautogui.press _ | pyautogui.keyDown _
  | pyautogui.keyUp _ | pyautogui.hotkey _ | pyautogui.countdown _
  | pyautogui.displayMousePosition _ | pyautogui.img_save _ _
  | pyautogui.makedirs _ => tt
  end.

(** Every call succeeds and finds nothing. *)
Definition quiet : Backend := λ _ c, Returns (default_ret c).

(** Every call raises [e]. *)
Definition failing (e : exn) : Backend := λ _ c, Raises e.

(** The user types [secret] into the password dialog. *)
Definition typing (secret : string) : Backend := λ _ c,
  match c return outcome (pyautogui.ret c) with
  | pyautogui.password _ _ _ => Returns (Some secret)
  | c' => Returns (default_ret c')
  end.

(** The active window has the title [title]. *)
Definition titled (title : option string) : Backend := λ _ c,
  match c return outcome (pyautogui.ret c) with
  | pyautogui.getActiveWindowTitle => Returns title
  | c' => Returns (default_ret c')
  end.


(** ** Reading an envelope *)

Definition has_key (k : string) (env : envelope) : bool :=
  match env !! k with
  | Some _ => true
  | None => false
  end.


Definition has_error (env : envelope) : bool := has_key "error" env.






(** The events a run added to the trace. *)
Definition added (w w' : World) (evs : list event) : Prop :=
  trace w' = (trace w ++ evs)%list.


(** The region an image search hands to the backend: the caller's when it is
    truthy, none otherwise. *)
Definition searched (region : option (list Z)) : option (list Z) :=
  if truthy_opt_list region then region else None.


(** What [password] answers: the echoed arguments and, under [result], the
    redaction marker when something was entered and [None] otherwise. *)
Definition redacted (message title mask : string) (provided : bool) : envelope :=
  {[ "message" := VStr message; "title" := VStr title; "mask" := VStr mask;
     "result" := if provided then VStr "[REDACTED]" else VNone ]}.

(** ** Paths *)


(** ** Colors *)



Definition in_byte (z : Z) : Prop := (0 ≤ z ≤ 255)%Z.

Definition all_ascii : list ascii := ascii_of_nat <$> seq 0 256.


(** A text that [int] reads as a number once its surrounding whitespace is
    stripped. *)
Definition is_integer (c : string) : Prop :=
  ∃ z, Py.int 10 (Py.strip_ws c) = Returns z.

(** Exactly three comma-separated integers. *)
Definition three_integers (parts : list string) : Prop :=
  length parts = 3%nat ∧ Forall is_integer parts.

(** The malformed color strings: neither form; a hexadecimal body (what
    follows the leading [#] signs) that is not six characters long; or a
    parenthesized form that does not hold exactly three comma-separated
    integers between its parentheses and spaces. *)
Definition malformed (color : string) : Prop :=
  (Py.startswith "#" color = false ∧ Py.startswith "(" color = false)
  ∨ (Py.startswith "#" color = true
     ∧ String.length (Py.lstrip "#" color) ≠ 6%nat)
  ∨ (Py.startswith "(" color = true
     ∧ ¬ three_integers (Py.split "," (Py.strip "() " color))).

(** ** Further backends and checks *)


(** The tools whose handler is [return {"error": str(e)}] and nothing else. *)
Definition plain_handler (t : tool) : bool :=
  match t with
  | Locate_on_screen _ _ _ | Locate_center_on_screen _ _ _
  | Pixel_matches_color _ _ _ _ | Get_active_window_title
  | Get_all_window_titles | Get_windows_with_title _ | Fail_safe_check => false
  | _ => true
  end.

(** The pixel under every coordinate has the color [(r, g, b)]. *)
Definition pixel_of (r g b : Z) : Backend := λ _ c,
  match c return outcome (pyautogui.ret c) with
  | pyautogui.pixel _ _ => Returns (r, g, b)
  | c' => Returns (default_ret c')
  end.

(** [f"{v:02x}"] is two characters that [int(_, 16)] reads back as [v]. *)
Definition byte_hex_ok (v : Z) : bool :=
  match Py.format_02x v with
  | String c1 (String c2 EmptyString) =>
      negb (Ascii.eqb c1 "#")
      && match Py.int 16 (String c1 (String c2 EmptyString)) with
         | Returns v' => (v' =? v)%Z
         | Raises _ => false
         end
  | _ => false
  end.

(** What two characters can amount to in base 16, sign included. *)
Definition hex_channel (v : Z) : Prop := (-15 ≤ v ≤ 255)%Z.

(** Two characters read in base 16, if they read at all, stay in that range. *)
Definition hex_pair_bounded (c1 c2 : ascii) : bool :=
  match Py.int 16 (String c1 (String c2 EmptyString)) with
  | Returns v => ((-15 <=? v) && (v <=? 255))%Z
  | Raises _ => true
  end.

(** The image is on the screen, in [box], centred at [center]. *)
Definition finding (box : Box.t) (center : Point.t) : Backend := λ _ c,
  match c return outcome (pyautogui.ret c) with
  | pyautogui.locateOnScreen _ _ _ => Returns (Some box)
  | pyautogui.locateCenterOnScreen _ _ _ => Returns (Some center)
  | c' => Returns (default_ret c')
  end.

(** The user answers the prompt dialog with [text], or dismisses it. *)
Definition answering (text : option string) : Backend := λ _ c,
  match c return outcome (pyautogui.ret c) with
  | pyautogui.prompt _ _ _ => Returns text
  | c' => Returns (default_ret c')
  end.

(** The visible windows are titled [titles]. *)
Definition listing (titles : list string) : Backend := λ _ c,
  match c return outcome (pyautogui.ret c) with
  | pyautogui.getAllTitles => Returns titles
  | c' => Returns (default_ret c')
  end.

(** No character of [s] satisfies [p]. *)
Definition no_char (p : ascii → bool) (s : string) : bool :=
  forallb (λ c, negb (p c)) (list_ascii_of_string s).

(** The characters [strip] removes around a parenthesized color. *)
Definition in_parens (c : ascii) : bool := Py.mem_char c "() ".

(** The separator of a parenthesized color. *)
Definition is_comma (c : ascii) : bool := Ascii.eqb c ",".

(** [str(v)] is not empty, holds no parenthesis, space or comma, and [int]
    reads it back as [v], also behind one space. *)
Definition byte_dec_ok (v : Z) : bool :=
  let d := Py.str_int v in
  negb (String.eqb d EmptyString)
  && no_char in_parens d && no_char is_comma d
  && match Py.int 10 (Py.strip_ws d), Py.int 10 (Py.strip_ws (" " +:+ d)) with
     | Returns v1, Returns v2 => ((v1 =? v) && (v2 =? v))%Z
     | _, _ => false
     end.

(** * Properties *)

(** ** Running a tool step by step *)

Lemma invoke_returns be c w (a : pyautogui.ret c) :
  be w c = Returns a → invoke be c w = (Returns a, record c None w).
Proof. intros H. unfold invoke. by rewrite H. Qed.

Lemma invoke_raises be c w e :
  be w c = Raises e → invoke be c w = (Raises e, record c (Some e) w).
Proof. intros H. unfold invoke. by rewrite H. Qed.

Lemma bind_returns {A B} (m : M A) (f : A → M B) w a w' :
  m w = (Returns a, w') → (m ≫= f) w = f a w'.
Proof. intros H. unfold mbind, M_bind. by rewrite H. Qed.

Lemma bind_raises {A B} (m : M A) (f : A → M B) w e w' :
  m w = (Raises e, w') → (m ≫= f) w = (Raises e, w').
Proof. intros H. unfold mbind, M_bind. by rewrite H. Qed.

Lemma added_record w c r : added w (record c r w) [mkEvent c r].
Proof. reflexivity. Qed.

(** Unfold a tool down to the backend's answers. *)
Ltac unfold_tools :=
  unfold run, move_mouse, move_mouse_relative, click, double_click, right_click,
    drag_to, drag_relative, scroll, get_mouse_position, type_text, press_key,
    key_down, key_up, hotkey, screenshot, locate_on_screen,
    locate_center_on_screen, get_pixel_color, pixel_matches_color,
    get_screen_size, get_active_window_title, get_all_window_titles,
    get_windows_with_title, alert, confirm, prompt, password, countdown,
    display_mouse_position, fail_safe_check, error_envelope,
    try_except, lift, read, invoke in *;
  unfold mbind, M_bind, mret, M_ret in *.

(** ** Failsafe status query *)

(** C9. [fail_safe_check] makes no backend call and reads the failsafe flag:
    whatever the flag, the backend and the rest of the state, it returns
    [enabled] set to the flag with the matching message and no [error], and
    the state, call trace included, is left as it was. *)
Theorem fail_safe_check_pure_read (be : Backend) (w : World) :
  let env : envelope :=
    {[ "enabled" := VBool (FAILSAFE w);
       "message" := VStr (if FAILSAFE w then "Failsafe enabled"
                          else "Failsafe disabled") ]} in
  run be Fail_safe_check w = (Returns env, w)
  ∧ has_error env = false
  ∧ added w w [].
Proof.
  split; [reflexivity|]. split; [reflexivity|].
  unfold added. by rewrite app_nil_r.
Qed.

(** ** Window queries *)

(** C10. When the backend gives a falsy title for the active window, be it
    [None] or the empty string, [get_active_window_title] answers with the
    string "None" under [title]; the two cases give the same result. *)
Theorem get_active_window_title_falsy (be1 be2 : Backend) (w : World) :
  be1 w pyautogui.getActiveWindowTitle = Returns None →
  be2 w pyautogui.getActiveWindowTitle = Returns (Some EmptyString) →
  let answer := (Returns ({[ "title" := VStr "None" ]} : envelope),
                 record pyautogui.getActiveWindowTitle None w) in
  get_active_window_title be1 w = answer
  ∧ get_active_window_title be2 w = answer.
Proof.
  intros H1 H2. unfold_tools. by rewrite H1, H2.
Qed.

Lemma get_active_window_title_falsy_witness :
  get_active_window_title (titled None) startup
  = (Returns {[ "title" := VStr "None" ]},
     record pyautogui.getActiveWindowTitle None startup)
  ∧ get_active_window_title (titled (Some EmptyString)) startup
    = (Returns {[ "title" := VStr "None" ]},
       record pyautogui.getActiveWindowTitle None startup).
Proof.
  apply (get_active_window_title_falsy (titled None) (titled (Some EmptyString)));
    reflexivity.
Defined.

(** C8. When the backend finds no window for the title fragment, the empty
    fragment included, [get_windows_with_title] returns an empty [windows]
    list with [count] 0 and no [error]; and in every envelope the tool
    returns, [count] is the length of [windows]. *)
Theorem get_windows_with_title_count (be : Backend) (title_fragment : string)
    (w : World) :
  let c := pyautogui.getWindowsWithTitle title_fragment in
  let empty : envelope := {[ "windows" := VList []; "count" := VInt 0 ]} in
  (be w c = Returns [] →
   get_windows_with_title be title_fragment w = (Returns empty, record c None w))
  ∧ has_error empty = false
  ∧ (∀ env w', get_windows_with_title be title_fragment w = (Returns env, w') →
       ∃ l, env !! "windows" = Some (VList l)
            ∧ env !! "count" = Some (VInt (Py.len l))).
Proof.
  intros c empty. unfold_tools. subst c. split; [|split; [reflexivity|]].
  - by intros ->.
  - intros env w'.
    destruct (be w (pyautogui.getWindowsWithTitle title_fragment)) as [ws|e].
    + intros [= <- <-]. by exists (window_entry <$> ws).
    + destruct (is_PyAutoGUIException e); intros [= <- <-]. by exists [].
Qed.

Lemma get_windows_with_title_count_witness :
  get_windows_with_title quiet EmptyString startup
  = (Returns {[ "windows" := VList []; "count" := VInt 0 ]},
     record (pyautogui.getWindowsWithTitle EmptyString) None startup).
Proof.
  apply (proj1 (get_windows_with_title_count quiet EmptyString startup)).
  reflexivity.
Defined.

(** ** Password dialog *)

(** C3. Two runs of [password] that differ only in the non-empty secret the
    user entered end in the same result and the same state: the envelope holds
    the echoed arguments and the marker "[REDACTED]" under [result].  For any
    answer of the dialog the envelope is made of the arguments and of whether
    something was entered, never of what was entered. *)
Theorem password_secret_not_disclosed (be1 be2 : Backend) (w : World)
    (message title mask secret1 secret2 : string) :
  let c := pyautogui.password message title mask in
  secret1 ≠ EmptyString → secret2 ≠ EmptyString →
  be1 w c = Returns (Some secret1) →
  be2 w c = Returns (Some secret2) →
  password be1 message title mask w = password be2 message title mask w
  ∧ password be1 message title mask w
    = (Returns (redacted message title mask true), record c None w)
  ∧ (∀ be result, be w c = Returns result →
       password be message title mask w
       = (Returns (redacted message title mask (truthy_opt_str result)),
          record c None w)).
Proof.
  intros c N1 N2 H1 H2. subst c.
  assert (G : ∀ be result,
             be w (pyautogui.password message title mask) = Returns result →
             password be message title mask w
             = (Returns (redacted message title mask (truthy_opt_str result)),
                record (pyautogui.password message title mask) None w)).
  { intros be result H. unfold_tools. by rewrite H. }
  assert (T : ∀ s, s ≠ EmptyString → truthy_opt_str (Some s) = true).
  { intros [|a s] Hs; [by destruct Hs | reflexivity]. }
  rewrite (G _ _ H1), (G _ _ H2), !T by assumption. auto.
Qed.

Lemma password_secret_not_disclosed_witness :
  password (typing "hunter2") "Enter" "Password" "*" startup
  = password (typing "correct horse") "Enter" "Password" "*" startup.
Proof.
  refine (proj1 (password_secret_not_disclosed
                   (typing "hunter2") (typing "correct horse") startup
                   "Enter" "Password" "*" "hunter2" "correct horse" _ _ _ _));
    (discriminate || reflexivity).
Defined.

(** ** Image search *)



(** ** Screenshot files *)












(** ** Color strings *)

Lemma int_raises_ValueError base s e :
  Py.int base s = Raises e → ∃ msg, e = ValueError msg.
Proof.
  unfold Py.int, Py.invalid_literal, Py.exceeds_limit.
  repeat case_match; intros [= <-]; eauto.
Qed.

Lemma tuple_of_returns {A B} (f : A → outcome B) l bs :
  tuple_of f l = Returns bs → Forall2 (λ a b, f a = Returns b) l bs.
Proof.
  revert bs. induction l as [|a l IH]; simpl; intros bs.
  - intros [= <-]. constructor.
  - unfold mbind, outcome_bind, mret, outcome_ret.
    destruct (f a) as [b|] eqn:Ha; [|done].
    destruct (tuple_of f l) as [bs'|]; [|done].
    intros [= <-]. constructor; auto.
Qed.

Lemma tuple_of_raises {A B} (f : A → outcome B) l e :
  tuple_of f l = Raises e → ∃ a, a ∈ l ∧ f a = Raises e.
Proof.
  induction l as [|a l IH]; simpl; [done|].
  unfold mbind, outcome_bind, mret, outcome_ret.
  destruct (f a) as [b|e'] eqn:Ha.
  - destruct (tuple_of f l) as [bs'|e'']; [done|].
    intros [= ->]. destruct IH as (a' & Hin & Hf); [done|].
    exists a'. split; [by right | done].
  - intros [= ->]. exists a. split; [by left | done].
Qed.

(** Parsing a color raises nothing but [ValueError]. *)
Lemma rgb_tuple_raises_ValueError color e :
  rgb_tuple color = Raises e → ∃ msg, e = ValueError msg.
Proof.
  unfold rgb_tuple. repeat case_match; try (intros [= <-]; eauto; fail).
  all: intros (a & _ & Ha)%tuple_of_raises; by eapply int_raises_ValueError.
Qed.

(** When the color does not parse, no call is made and the handler answers. *)
Lemma pixel_matches_color_unparsed be x y color tolerance w e :
  rgb_tuple color = Raises e →
  pixel_matches_color be x y color tolerance w
  = (Returns {[ "error" := VStr ("Failed to process color '" +:+ color +:+ "': "
                                 +:+ exn_str e) ]}, w).
Proof.
  intros H. destruct (rgb_tuple_raises_ValueError _ _ H) as [msg ->].
  unfold_tools. by rewrite H.
Qed.

Lemma startswith_paren_not_hash color :
  Py.startswith "(" color = true → Py.startswith "#" color = false.
Proof.
  unfold Py.startswith. destruct color as [|c r]; [done|].
  change (String.prefix "(" (String c r))
    with (if ascii_dec "(" c then String.prefix EmptyString r else false).
  destruct (ascii_dec "(" c) as [<-|]; [reflexivity | discriminate].
Qed.

Lemma malformed_unparsed color :
  malformed color → ∃ e, rgb_tuple color = Raises e.
Proof.
  unfold malformed, rgb_tuple.
  intros [[-> ->] | [[-> Hlen] | (Hparen & Hnot)]].
  3: rewrite Hparen, (startswith_paren_not_hash _ Hparen).
  - eauto.
  - apply Nat.eqb_neq in Hlen. rewrite Hlen. eauto.
  - destruct (length _ =? 3)%nat eqn:Hlen; [|eauto].
    destruct (tuple_of _ _) as [bs|e] eqn:Ht; [|eauto].
    destruct Hnot. split; [by apply Nat.eqb_eq|].
    apply tuple_of_returns in Ht. clear Hlen.
    induction Ht; constructor; [by eexists | done].
Qed.

(** C6. A malformed color string (neither form; a hexadecimal body whose
    length is not 6; a parenthesized form without exactly three
    comma-separated integers) makes [pixel_matches_color] return an envelope
    whose only field is an [error] that quotes the color and says what was
    wrong with it; there is no [matches] field and no backend call. *)
Theorem pixel_matches_color_malformed (be : Backend) (x y : Z) (color : string)
    (tolerance : Z) (w : World) :
  malformed color →
  ∃ msg,
    rgb_tuple color = Raises (ValueError msg)
    ∧ let env : envelope :=
        {[ "error" := VStr ("Failed to process color '" +:+ color +:+ "': "
                            +:+ msg) ]} in
      pixel_matches_color be x y color tolerance w = (Returns env, w)
      ∧ has_error env = true
      ∧ has_key "matches" env = false.
Proof.
  intros [e He]%malformed_unparsed.
  destruct (rgb_tuple_raises_ValueError _ _ He) as [msg ->].
  exists msg. split; [done|]. split_and!; [|done..].
  by rewrite (pixel_matches_color_unparsed _ _ _ _ _ _ _ He).
Qed.

Lemma pixel_matches_color_malformed_witness :
  pixel_matches_color quiet 0 0 "notacolor" 0 startup
  = (Returns {[ "error" := VStr ("Failed to process color 'notacolor': "
                                 +:+ "Invalid color format. "
                                 +:+ "Use '#RRGGBB' or '(R, G, B)'.") ]},
     startup).
Proof.
  destruct (pixel_matches_color_malformed quiet 0 0 "notacolor" 0 startup)
    as (msg & Hmsg & Hrun & _).
  - left. split; reflexivity.
  - injection Hmsg as <-. exact Hrun.
Defined.

Lemma in_all_ascii c : c ∈ all_ascii.
Proof.
  unfold all_ascii. rewrite <- (ascii_nat_embedding c).
  apply list_elem_of_fmap. exists (nat_of_ascii c). split; [done|].
  apply list_elem_of_In, in_seq. pose proof (nat_ascii_bounded c). lia.
Qed.






(** ** The shape of every envelope *)

(** Take a returned run apart: one case per answer of the backend. *)
Ltac run_cases H :=
  unfold_tools; repeat case_match; simplify_eq;
  try (apply pair_equal_spec in H as [H ?]); simplify_eq.




(** ** Catching by class *)


(** The events of a run, read off the final state. *)
Ltac solve_added :=
  unfold added, record; simpl;
  first [ rewrite <- !app_assoc; reflexivity
        | reflexivity
        | symmetry; apply app_nil_r ].




(** ** The runtime pieces on concrete inputs *)

Example str_int_examples :
  Py.str_int (-42) = "-42" ∧ Py.str_int 0 = "0" ∧ Py.str_int 1920 = "1920".
Proof. by split_and!. Qed.

Example strip_split_examples :
  Py.strip "() " "( 1, 2, 3 )" = "1, 2, 3"
  ∧ Py.split "," "1, 2,,3" = ["1"; " 2"; EmptyString; "3"]
  ∧ Py.split "," EmptyString = [EmptyString]
  ∧ Py.lstrip "#" "##FF0000" = "FF0000".
Proof. by split_and!. Qed.

Example int_examples :
  Py.int 16 "FF" = Returns 255
  ∧ Py.int 16 "-1" = Returns (-1)
  ∧ Py.int 10 " 300 " = Returns 300
  ∧ Py.int 10 "1_0" = Returns 10
  ∧ Py.int 16 "0x"
    = Raises (ValueError "invalid literal for int() with base 16: '0x'")
  ∧ Py.int 10 "1.5"
    = Raises (ValueError "invalid literal for int() with base 10: '1.5'").
Proof. by split_and!. Qed.

Example format_examples :
  Py.format_02x 255 = "ff" ∧ Py.format_02x 5 = "05" ∧ Py.format_02x 0 = "00"
  ∧ Py.format_02x (-1) = "-1" ∧ Py.format_02x 4096 = "1000".
Proof. by split_and!. Qed.

Example b64encode_examples :
  Py.b64encode "Man" = "TWFu" ∧ Py.b64encode "Ma" = "TWE="
  ∧ Py.b64encode "M" = "TQ==".
Proof. by split_and!. Qed.

Example basename_examples :
  os_path.basename "../../etc/passwd" = "passwd"
  ∧ os_path.basename "shot.png" = "shot.png"
  ∧ os_path.basename "a/b/" = EmptyString
  ∧ os_path.join "screenshots" "passwd" = "screenshots/passwd".
Proof. by split_and!. Qed.

Example rgb_tuple_examples :
  rgb_tuple "#FF0000" = Returns [255; 0; 0]%Z
  ∧ rgb_tuple "(255, 0, 0)" = Returns [255; 0; 0]%Z
  ∧ rgb_tuple "#FFF"
    = Raises (ValueError "Hex color must be in #RRGGBB format.")
  ∧ rgb_tuple "(1, 2)"
    = Raises (ValueError "RGB color must be a tuple/list of 3 integers.").
Proof. by split_and!. Qed.

Example move_mouse_quiet :
  move_mouse quiet 10 20 0%float startup
  = (Returns {[ "x" := VInt 10; "y" := VInt 20;
                "message" := VStr "Mouse moved to (10, 20)" ]},
     record (pyautogui.moveTo 10 20 0%float) None startup).
Proof. reflexivity. Qed.

Example get_pixel_color_quiet :
  fst (get_pixel_color quiet 3 4 startup)
  = Returns {[ "x" := VInt 3; "y" := VInt 4; "r" := VInt 0; "g" := VInt 0;
               "b" := VInt 0; "hex" := VStr "#000000" ]}.
Proof. reflexivity. Qed.

(** * Further properties of the tools *)



(** X2. For the tools whose handler is [return {"error": str(e)}], an envelope
    with an [error] holds that one field and nothing else, and its text is
    [str(e)] of the backend's own exception that the last call raised. *)
Theorem error_envelope_is_backend_text (be : Backend) (t : tool) (w w' : World)
    (env : envelope) :
  run be t w = (Returns env, w') →
  plain_handler t = true →
  has_error env = true →
  ∃ c e,
    last (trace w') = Some (mkEvent c (Some e))
    ∧ is_PyAutoGUIException e = true
    ∧ env = {[ "error" := VStr (exn_str e) ]}.
Proof.
  intros H Hplain Herr.
  destruct t; try discriminate Hplain; run_cases H; try discriminate Herr.
  all: do 2 eexists; split_and!; [| eassumption | reflexivity].
  all: unfold record; simpl;
    repeat match goal with H : _ = Raises _ |- _ => rewrite H end;
    simpl; apply last_snoc.
Qed.

Lemma error_envelope_is_backend_text_witness :
  ∃ c e,
    last (trace (snd (run (failing (PyAutoGUIException "fail-safe triggered"))
                        (Press_key "enter") startup)))
    = Some (mkEvent c (Some e))
    ∧ is_PyAutoGUIException e = true
    ∧ ({[ "error" := VStr "fail-safe triggered" ]} : envelope)
      = {[ "error" := VStr (exn_str e) ]}.
Proof.
  exact (error_envelope_is_backend_text
           (failing (PyAutoGUIException "fail-safe triggered"))
           (Press_key "enter") startup _ _ eq_refl eq_refl eq_refl).
Defined.

(** X3. Without a file name a successful [screenshot] makes two calls, the
    capture and the encoding to a PNG buffer: no directory is made and no
    file saved.  The envelope carries the base64 text of the buffer and has
    no [filename]. *)
Theorem screenshot_inline_writes_nothing (be : Backend) (region : option (list Z))
    (w w' : World) (env : envelope) :
  screenshot be None region w = (Returns env, w') →
  has_error env = false →
  ∃ img data,
    added w w' [mkEvent (pyautogui.screenshot region) None;
                mkEvent (pyautogui.img_save_png img) None]
    ∧ be (record (pyautogui.screenshot region) None w) (pyautogui.img_save_png img)
      = Returns data
    ∧ env = {[ "message" := VStr "Screenshot taken";
               "region" := Py.opt_int_list region;
               "image_base64" := VStr (Py.b64encode data) ]}
    ∧ has_key "filename" env = false.
Proof.
  intros H Herr. run_cases H; try discriminate Herr.
  do 2 eexists. split_and!; [solve_added | | reflexivity | reflexivity].
  assumption.
Qed.

Lemma screenshot_inline_writes_nothing_witness :
  ∃ img data,
    added startup (snd (screenshot quiet None None startup))
      [mkEvent (pyautogui.screenshot None) None;
       mkEvent (pyautogui.img_save_png img) None]
    ∧ quiet (record (pyautogui.screenshot None) None startup)
        (pyautogui.img_save_png img) = Returns data
    ∧ ({[ "message" := VStr "Screenshot taken"; "region" := VNone;
          "image_base64" := VStr EmptyString ]} : envelope)
      = {[ "message" := VStr "Screenshot taken";
           "region" := Py.opt_int_list None;
           "image_base64" := VStr (Py.b64encode data) ]}
    ∧ has_key "filename"
        ({[ "message" := VStr "Screenshot taken"; "region" := VNone;
            "image_base64" := VStr EmptyString ]} : envelope) = false.
Proof.
  exact (screenshot_inline_writes_nothing quiet None startup _ _ eq_refl eq_refl).
Defined.






Lemma byte_hex_all : forallb byte_hex_ok (Z.of_nat <$> seq 0 256) = true.
Proof. vm_compute. reflexivity. Qed.

Lemma format_02x_byte v :
  in_byte v →
  ∃ c1 c2, Py.format_02x v = String c1 (String c2 EmptyString)
           ∧ c1 ≠ "#"%char
           ∧ Py.int 16 (String c1 (String c2 EmptyString)) = Returns v.
Proof.
  intros Hv. pose proof byte_hex_all as Hall.
  rewrite forallb_forall in Hall. specialize (Hall v).
  unfold in_byte in Hv.
  assert (Hin : In v (Z.of_nat <$> seq 0 256)).
  { apply list_elem_of_In, list_elem_of_fmap. exists (Z.to_nat v).
    split; [lia|]. apply list_elem_of_In, in_seq. lia. }
  specialize (Hall Hin). unfold byte_hex_ok in Hall.
  destruct (Py.format_02x v) as [|c1 [|c2 [|]]]; try discriminate.
  apply andb_prop in Hall as [Hc Hi].
  exists c1, c2. split_and!; [done | |].
  - intros ->. discriminate.
  - destruct (Py.int 16 _) as [v'|]; [|done].
    apply Z.eqb_eq in Hi. by subst.
Qed.

(** X5. The [hex] field of [get_pixel_color] reads back: for channels from 0
    to 255 it is seven characters long and [pixel_matches_color] parses it
    into the same three channels. *)
Theorem pixel_hex_round_trip (be : Backend) (x y r g b : Z) (w : World) :
  be w (pyautogui.pixel x y) = Returns (r, g, b) →
  in_byte r → in_byte g → in_byte b →
  ∃ hex env w',
    get_pixel_color be x y w = (Returns env, w')
    ∧ env !! "hex" = Some (VStr hex)
    ∧ String.length hex = 7%nat
    ∧ rgb_tuple hex = Returns [r; g; b].
Proof.
  intros Hbe Hr Hg Hb.
  destruct (format_02x_byte r Hr) as (r1 & r2 & Er & Nr & Ir).
  destruct (format_02x_byte g Hg) as (g1 & g2 & Eg & _ & Ig).
  destruct (format_02x_byte b Hb) as (b1 & b2 & Eb & _ & Ib).
  do 3 eexists. unfold_tools. rewrite Hbe. split; [reflexivity|].
  split; [reflexivity|]. rewrite Er, Eg, Eb. split; [reflexivity|].
  unfold rgb_tuple.
  change (Py.startswith "#" _) with true. cbv iota.
  assert (Hl : Py.lstrip "#"
                 ("#" +:+ String r1 (String r2 EmptyString)
                  +:+ String g1 (String g2 EmptyString)
                  +:+ String b1 (String b2 EmptyString))
               = String r1 (String r2 (String g1 (String g2
                   (String b1 (String b2 EmptyString)))))).
  { unfold Py.lstrip. simpl. unfold Py.mem_char. simpl.
    destruct (Ascii.eqb r1 "#") eqn:E; [|done].
    apply Ascii.eqb_eq in E. done. }
  rewrite Hl. simpl.
  change (Py.slice 0 2 _) with (String r1 (String r2 EmptyString)).
  change (Py.slice 2 4 _) with (String g1 (String g2 EmptyString)).
  change (Py.slice 4 6 _) with (String b1 (String b2 EmptyString)).
  unfold mbind, outcome_bind. by rewrite Ir, Ig, Ib.
Qed.

Lemma pixel_hex_round_trip_witness :
  ∃ hex env w',
    get_pixel_color (pixel_of 255 0 128) 3 4 startup = (Returns env, w')
    ∧ env !! "hex" = Some (VStr hex)
    ∧ String.length hex = 7%nat
    ∧ rgb_tuple hex = Returns [255; 0; 128]%Z.
Proof.
  apply (pixel_hex_round_trip (pixel_of 255 0 128) 3 4 255 0 128 startup);
    [reflexivity | unfold in_byte; lia ..].
Defined.

Lemma tuple_of_length {A B} (f : A → outcome B) l bs :
  tuple_of f l = Returns bs → length bs = length l.
Proof. intros H%tuple_of_returns. symmetry. by eapply Forall2_length. Qed.

(** X6. A color that parses, in either form, gives exactly three channels
    to the backend. *)
Theorem rgb_tuple_three_channels (color : string) (rgb : list Z) :
  rgb_tuple color = Returns rgb → length rgb = 3%nat.
Proof.
  unfold rgb_tuple. repeat case_match; try discriminate.
  - by intros ->%tuple_of_length.
  - intros ->%tuple_of_length. by apply Nat.eqb_eq.
Qed.

Lemma rgb_tuple_three_channels_witness :
  length [255; 0; 0]%Z = 3%nat.
Proof. exact (rgb_tuple_three_channels "(255, 0, 0)" _ eq_refl). Defined.

Lemma hex_pair_bounded_all :
  forallb (λ c1, forallb (hex_pair_bounded c1) all_ascii) all_ascii = true.
Proof. vm_compute. reflexivity. Qed.

Lemma int_pair_bounded c1 c2 v :
  Py.int 16 (String c1 (String c2 EmptyString)) = Returns v → hex_channel v.
Proof.
  intros H. pose proof hex_pair_bounded_all as Hall.
  rewrite forallb_forall in Hall.
  specialize (Hall c1 (proj1 (list_elem_of_In _ _) (in_all_ascii c1))).
  rewrite forallb_forall in Hall.
  specialize (Hall c2 (proj1 (list_elem_of_In _ _) (in_all_ascii c2))).
  unfold hex_pair_bounded in Hall. rewrite H in Hall.
  unfold hex_channel. lia.
Qed.

(** X7. Whatever six characters follow the [#] signs, a hexadecimal color
    that parses has every channel between -15 and 255: never above one byte,
    below zero only through a sign character. *)
Theorem hex_color_channels_bounded (color : string) (rgb : list Z) :
  Py.startswith "#" color = true →
  rgb_tuple color = Returns rgb →
  Forall hex_channel rgb.
Proof.
  intros Hs. unfold rgb_tuple. rewrite Hs.
  destruct (String.length (Py.lstrip "#" color) =? 6)%nat eqn:Hl; [|done].
  apply Nat.eqb_eq in Hl.
  destruct (Py.lstrip "#" color) as [|c1 [|c2 [|c3 [|c4 [|c5 [|c6 [|]]]]]]];
    try discriminate.
  intros H%tuple_of_returns.
  inversion H as [|? v1 ? l1 H1 H']; subst.
  inversion H' as [|? v2 ? l2 H2 H'']; subst.
  inversion H'' as [|? v3 ? l3 H3 H''']; subst.
  inversion H'''; subst.
  apply Forall_cons; split; [exact (int_pair_bounded c1 c2 _ H1)|].
  apply Forall_cons; split; [exact (int_pair_bounded c3 c4 _ H2)|].
  apply Forall_cons; split; [exact (int_pair_bounded c5 c6 _ H3)|].
  apply Forall_nil_2.
Qed.

Lemma hex_color_channels_bounded_witness :
  Forall hex_channel [-1; -1; -1]%Z.
Proof.
  exact (hex_color_channels_bounded "#-1-1-1" _ eq_refl eq_refl).
Defined.

(** X8. Repeating the leading marker changes nothing: a further [#] before
    a hexadecimal color, or a further opening parenthesis before a
    parenthesized one, parses to the same result or the same error. *)
Theorem repeated_marker_ignored (color : string) :
  (Py.startswith "#" color = true →
   rgb_tuple (String "#" color) = rgb_tuple color)
  ∧ (Py.startswith "(" color = true →
     rgb_tuple (String "(" color) = rgb_tuple color).
Proof.
  split; intros H; unfold rgb_tuple;
    (destruct color as [|c0 r0]; [discriminate H|]).
  - rewrite H.
    change (Py.startswith "#" (String "#" (String c0 r0))) with true.
    by change (Py.lstrip "#" (String "#" (String c0 r0)))
         with (Py.lstrip "#" (String c0 r0)).
  - rewrite H, (startswith_paren_not_hash _ H).
    change (Py.startswith "#" (String "(" (String c0 r0))) with false.
    change (Py.startswith "(" (String "(" (String c0 r0))) with true.
    by change (Py.strip "() " (String "(" (String c0 r0)))
         with (Py.strip "() " (String c0 r0)).
Qed.

Lemma repeated_marker_ignored_witness :
  rgb_tuple "##FF0000" = rgb_tuple "#FF0000".
Proof. exact (proj1 (repeated_marker_ignored "#FF0000") eq_refl). Defined.

(** X9. When the color parses, [pixel_matches_color] makes one call with
    the parsed channels and the given tolerance; [matches] is the backend's
    answer, and an [Exception] of the backend is reported under [error] as a
    failure to process the color. *)
Theorem pixel_matches_color_parsed (be : Backend) (x y : Z) (color : string)
    (tolerance : Z) (w : World) (rgb : list Z) :
  rgb_tuple color = Returns rgb →
  let c := pyautogui.pixelMatchesColor x y rgb tolerance in
  pixel_matches_color be x y color tolerance w
  = (match be w c with
     | Returns matches =>
         Returns {[ "x" := VInt x; "y" := VInt y; "color" := VStr color;
                    "matches" := VBool matches ]}
     | Raises e =>
         if is_Exception e
         then Returns {[ "error" := VStr ("Failed to process color '" +:+ color
                                          +:+ "': " +:+ exn_str e) ]}
         else Raises e
     end,
     record c (raised (be w c)) w).
Proof.
  intros H c. subst c. unfold_tools. rewrite H.
  destruct (be w _) as [m|e]; [done|]. by destruct (is_Exception e).
Qed.

Lemma pixel_matches_color_parsed_witness :
  pixel_matches_color (failing (PyAutoGUIException "fail-safe triggered"))
    0 0 "#FF0000" 0 startup
  = (Returns {[ "error" := VStr ("Failed to process color '#FF0000': "
                                 +:+ "fail-safe triggered") ]},
     record (pyautogui.pixelMatchesColor 0 0 [255; 0; 0]%Z 0)
       (Some (PyAutoGUIException "fail-safe triggered")) startup).
Proof.
  exact (pixel_matches_color_parsed
           (failing (PyAutoGUIException "fail-safe triggered"))
           0 0 "#FF0000" 0 startup [255; 0; 0]%Z eq_refl).
Defined.

(** X10. [confirm] treats an empty list of options as no options: the two
    runs are the same.  A successful envelope never shows an empty [options]
    list: it shows the caller's options when there are some, and they are
    what the backend was called with; otherwise it shows OK and Cancel, and
    the backend was called without options. *)
Theorem confirm_empty_options (be : Backend) (message title : string) (w : World) :
  confirm be message title (Some []) w = confirm be message title None w
  ∧ ∀ options env w',
      confirm be message title options w = (Returns env, w') →
      has_error env = false →
      ∃ shown,
        env !! "options" = Some (Py.str_list shown)
        ∧ shown ≠ []
        ∧ (truthy_opt_list options = true →
           options = Some shown
           ∧ added w w' [mkEvent (pyautogui.confirm message title options) None])
        ∧ (truthy_opt_list options = false →
           shown = ["OK"; "Cancel"]
           ∧ added w w' [mkEvent (pyautogui.confirm message title None) None]).
Proof.
  split; [reflexivity|]. intros options env w' H Herr.
  destruct options as [[|o os]|]; unfold_tools; repeat case_match; simplify_eq.
  all: try discriminate Herr.
  all: eexists; split_and!; [reflexivity | done | intros ? | intros ?];
    try discriminate;
    (split; [done|]; unfold added, record; simpl;
     repeat match goal with E : _ = Returns _ |- _ => rewrite E end;
     reflexivity).
Qed.

Lemma confirm_empty_options_witness :
  ∃ shown,
    ({[ "message" := VStr "Proceed?"; "title" := VStr "Confirm";
        "options" := Py.str_list ["OK"; "Cancel"];
        "result" := VStr "OK" ]} : envelope) !! "options"
    = Some (Py.str_list shown)
    ∧ shown ≠ []
    ∧ (truthy_opt_list (Some ([] : list string)) = true →
       Some [] = Some shown
       ∧ added startup (snd (confirm quiet "Proceed?" "Confirm" (Some []) startup))
           [mkEvent (pyautogui.confirm "Proceed?" "Confirm" (Some [])) None])
    ∧ (truthy_opt_list (Some ([] : list string)) = false →
       shown = ["OK"; "Cancel"]
       ∧ added startup (snd (confirm quiet "Proceed?" "Confirm" (Some []) startup))
           [mkEvent (pyautogui.confirm "Proceed?" "Confirm" None) None]).
Proof.
  exact (proj2 (confirm_empty_options quiet "Proceed?" "Confirm" startup)
           (Some []) _ _ eq_refl eq_refl).
Defined.

(** X11. The image searches make one call, and never hand an empty region
    to the backend: an empty region is sent as no region, any other is sent
    as given. *)
Theorem locate_never_sends_empty_region (be : Backend) (image_path : string)
    (region : option (list Z)) (confidence : float) (w w' : World)
    (o : outcome envelope) (center : bool) :
  (if center then locate_center_on_screen be image_path region confidence w
   else locate_on_screen be image_path region confidence w) = (o, w') →
  ∃ sent r,
    added w w'
      [mkEvent (if center
                then pyautogui.locateCenterOnScreen image_path sent confidence
                else pyautogui.locateOnScreen image_path sent confidence) r]
    ∧ sent ≠ Some []
    ∧ (region = Some [] → sent = None)
    ∧ (region ≠ Some [] → sent = region).
Proof.
  intros H.
  destruct center, region as [[|z zs]|]; run_cases H.
  all: do 2 eexists; split_and!; [solve_added | done | done | done].
Qed.

Lemma locate_never_sends_empty_region_witness :
  ∃ sent r,
    added startup
      (snd (locate_on_screen quiet "button.png" (Some []) 0.5%float startup))
      [mkEvent (pyautogui.locateOnScreen "button.png" sent 0.5%float) r]
    ∧ sent ≠ Some []
    ∧ (Some [] = Some ([] : list Z) → sent = None)
    ∧ (Some [] ≠ Some ([] : list Z) → sent = Some []).
Proof.
  exact (locate_never_sends_empty_region quiet "button.png" (Some []) 0.5%float
           startup _ _ false eq_refl).
Defined.

(** X12. An image search answers [found] true only when the backend found
    the image, and then the position fields are the backend's ([left], [top],
    [width], [height] of the box, or [x], [y] of the centre) and there is no
    [error]. *)
Theorem locate_found_reports_position (be : Backend) (image_path : string)
    (region : option (list Z)) (confidence : float) (w : World) :
  (∀ env w',
     locate_on_screen be image_path region confidence w = (Returns env, w') →
     env !! "found" = Some (VBool true) →
     ∃ pos,
       be w (pyautogui.locateOnScreen image_path (searched region) confidence)
       = Returns (Some pos)
       ∧ env !! "left" = Some (VInt (Box.left pos))
       ∧ env !! "top" = Some (VInt (Box.top pos))
       ∧ env !! "width" = Some (VInt (Box.width pos))
       ∧ env !! "height" = Some (VInt (Box.height pos))
       ∧ has_error env = false)
  ∧ (∀ env w',
       locate_center_on_screen be image_path region confidence w
       = (Returns env, w') →
       env !! "found" = Some (VBool true) →
       ∃ pos,
         be w (pyautogui.locateCenterOnScreen image_path (searched region)
                 confidence)
         = Returns (Some pos)
         ∧ env !! "x" = Some (VInt (Point.x pos))
         ∧ env !! "y" = Some (VInt (Point.y pos))
         ∧ has_error env = false).
Proof.
  unfold searched.
  split; intros env w' H Hfound;
    destruct (truthy_opt_list region) eqn:Hr;
    unfold_tools; rewrite Hr in H; repeat case_match; simplify_eq;
    try discriminate Hfound.
  all: eexists; split_and!; (eassumption || reflexivity).
Qed.

Lemma locate_found_reports_position_witness :
  ∃ pos,
    finding (Box.mk 10 20 30 40) (Point.mk 25 40) startup
      (pyautogui.locateOnScreen "button.png" (searched None) 0.5%float)
    = Returns (Some pos)
    ∧ ({[ "found" := VBool true; "left" := VInt 10; "top" := VInt 20;
          "width" := VInt 30; "height" := VInt 40;
          "message" := VStr "Found image at (10, 20)" ]} : envelope) !! "left"
      = Some (VInt (Box.left pos))
    ∧ ({[ "found" := VBool true; "left" := VInt 10; "top" := VInt 20;
          "width" := VInt 30; "height" := VInt 40;
          "message" := VStr "Found image at (10, 20)" ]} : envelope) !! "top"
      = Some (VInt (Box.top pos))
    ∧ ({[ "found" := VBool true; "left" := VInt 10; "top" := VInt 20;
          "width" := VInt 30; "height" := VInt 40;
          "message" := VStr "Found image at (10, 20)" ]} : envelope) !! "width"
      = Some (VInt (Box.width pos))
    ∧ ({[ "found" := VBool true; "left" := VInt 10; "top" := VInt 20;
          "width" := VInt 30; "height" := VInt 40;
          "message" := VStr "Found image at (10, 20)" ]} : envelope) !! "height"
      = Some (VInt (Box.height pos))
    ∧ has_error
        ({[ "found" := VBool true; "left" := VInt 10; "top" := VInt 20;
            "width" := VInt 30; "height" := VInt 40;
            "message" := VStr "Found image at (10, 20)" ]} : envelope) = false.
Proof.
  exact (proj1 (locate_found_reports_position
                  (finding (Box.mk 10 20 30 40) (Point.mk 25 40))
                  "button.png" None 0.5%float startup) _ _ eq_refl eq_refl).
Defined.

(** X13. Unlike [password], [prompt] returns what the user typed: the
    [result] field is the dialog's answer, so two runs that end in the same
    result had the same answer. *)
Theorem prompt_answer_disclosed (be1 be2 : Backend)
    (message title default : string) (w : World) (answer1 answer2 : option string) :
  let c := pyautogui.prompt message title default in
  be1 w c = Returns answer1 →
  be2 w c = Returns answer2 →
  (∃ env, fst (prompt be1 message title default w) = Returns env
          ∧ env !! "result" = Some (Py.opt_str answer1))
  ∧ (fst (prompt be1 message title default w)
     = fst (prompt be2 message title default w) →
     answer1 = answer2).
Proof.
  intros c H1 H2. subst c. unfold_tools. rewrite H1, H2. simpl.
  split; [by eexists|].
  intros Heq.
  apply (f_equal (λ o : outcome envelope,
                    match o with
                    | Returns m => m !! "result"
                    | Raises _ => None
                    end)) in Heq.
  change (Some (Py.opt_str answer1) = Some (Py.opt_str answer2)) in Heq.
  destruct answer1, answer2; simpl in Heq; congruence.
Qed.

Lemma prompt_answer_disclosed_witness :
  ∃ env,
    fst (prompt (answering (Some "hunter2")) "Name?" "Prompt" EmptyString startup)
    = Returns env
    ∧ env !! "result" = Some (Py.opt_str (Some "hunter2")).
Proof.
  exact (proj1 (prompt_answer_disclosed
                  (answering (Some "hunter2")) (answering None)
                  "Name?" "Prompt" EmptyString startup _ _ eq_refl eq_refl)).
Defined.

(** X14. In every envelope of [get_all_window_titles], [count] is the length
    of [titles]; without an [error] the titles are the backend's, in order,
    and with an [error] the list is empty. *)
Theorem get_all_window_titles_count (be : Backend) (w w' : World) (env : envelope) :
  get_all_window_titles be w = (Returns env, w') →
  ∃ titles,
    env !! "titles" = Some (Py.str_list titles)
    ∧ env !! "count" = Some (VInt (Py.len titles))
    ∧ (has_error env = false → be w pyautogui.getAllTitles = Returns titles)
    ∧ (has_error env = true → titles = []).
Proof.
  intros H. run_cases H.
  all: eexists; split_and!; try reflexivity; try done.
Qed.

Lemma get_all_window_titles_count_witness :
  ∃ titles,
    ({[ "titles" := Py.str_list ["Editor"; "Terminal"];
        "count" := VInt 2 ]} : envelope) !! "titles" = Some (Py.str_list titles)
    ∧ ({[ "titles" := Py.str_list ["Editor"; "Terminal"];
          "count" := VInt 2 ]} : envelope) !! "count" = Some (VInt (Py.len titles))
    ∧ (has_error ({[ "titles" := Py.str_list ["Editor"; "Terminal"];
                     "count" := VInt 2 ]} : envelope) = false →
       listing ["Editor"; "Terminal"] startup pyautogui.getAllTitles
       = Returns titles)
    ∧ (has_error ({[ "titles" := Py.str_list ["Editor"; "Terminal"];
                     "count" := VInt 2 ]} : envelope) = true → titles = []).
Proof.
  exact (get_all_window_titles_count (listing ["Editor"; "Terminal"]) startup
           _ _ eq_refl).
Defined.

(** X15. A successful [get_active_window_title] answers with the single
    field [title], always a non-empty string: the backend's title when it
    has one, and otherwise the string None, which is also what a window
    titled None gives. *)
Theorem active_title_never_empty (be : Backend) (w w' : World) (env : envelope) :
  get_active_window_title be w = (Returns env, w') →
  has_error env = false →
  ∃ s,
    env = {[ "title" := VStr s ]}
    ∧ s ≠ EmptyString
    ∧ (be w pyautogui.getActiveWindowTitle = Returns (Some s)
       ∨ s = "None"
         ∧ (be w pyautogui.getActiveWindowTitle = Returns None
            ∨ be w pyautogui.getActiveWindowTitle = Returns (Some EmptyString))).
Proof.
  intros H Herr. unfold_tools.
  destruct (be w pyautogui.getActiveWindowTitle) as [[[|a s]|]|e] eqn:E;
    simpl in H; simplify_eq.
  - exists "None". split_and!; [done | done | right; auto].
  - exists (String a s). split_and!; [done | done | by left].
  - exists "None". split_and!; [done | done | right; auto].
  - destruct (is_PyAutoGUIException e); simplify_eq; try discriminate Herr.
Qed.

Lemma active_title_never_empty_witness :
  ∃ s,
    ({[ "title" := VStr "None" ]} : envelope) = {[ "title" := VStr s ]}
    ∧ s ≠ EmptyString
    ∧ (titled (Some "None") startup pyautogui.getActiveWindowTitle
       = Returns (Some s)
       ∨ s = "None"
         ∧ (titled (Some "None") startup pyautogui.getActiveWindowTitle
            = Returns None
            ∨ titled (Some "None") startup pyautogui.getActiveWindowTitle
              = Returns (Some EmptyString))).
Proof.
  exact (active_title_never_empty (titled (Some "None")) startup _ _
           eq_refl eq_refl).
Defined.

Lemma string_length_append a b :
  String.length (a +:+ b) = (String.length a + String.length b)%nat.
Proof. induction a as [|c a IH]; simpl; [done | by rewrite IH]. Qed.

Lemma slice_0_length n s :
  String.length (Py.slice 0 n s) = Nat.min n (String.length s).
Proof.
  unfold Py.slice. rewrite Nat.sub_0_r. revert s.
  induction n as [|n IH]; intros [|c s]; simpl; try done.
  by rewrite IH.
Qed.

Lemma slice_0_short n s :
  (String.length s ≤ n)%nat → Py.slice 0 n s = s.
Proof.
  unfold Py.slice. rewrite Nat.sub_0_r. revert s.
  induction n as [|n IH]; intros [|c s]; simpl; try done; [lia|].
  intros H. rewrite IH; [done | lia].
Qed.

(** X16. A successful [type_text] echoes the whole text under [text], while
    its [message] quotes at most the first 50 characters, always followed by
    three dots: the message is 15 characters longer than the quoted part, and
    quotes the text whole when that has 50 characters or fewer. *)
Theorem type_text_message_bounded (be : Backend) (text : string) (interval : float)
    (w w' : World) (env : envelope) :
  type_text be text interval w = (Returns env, w') →
  has_error env = false →
  env !! "text" = Some (VStr text)
  ∧ ∃ m,
      env !! "message" = Some (VStr m)
      ∧ String.length m = (15 + Nat.min 50 (String.length text))%nat
      ∧ ((String.length text ≤ 50)%nat → m = "Typed text: " +:+ text +:+ "...")
      ∧ m = "Typed text: " +:+ Py.slice 0 50 text +:+ "...".
Proof.
  intros H Herr. run_cases H; try discriminate Herr.
  split; [reflexivity|]. eexists. split_and!; [reflexivity | | | reflexivity].
  - rewrite !string_length_append, slice_0_length. simpl. lia.
  - intros Hs. by rewrite slice_0_short.
Qed.

Lemma type_text_message_bounded_witness :
  ({[ "text" := VStr "hi"; "message" := VStr "Typed text: hi..." ]} : envelope)
    !! "text" = Some (VStr "hi")
  ∧ ∃ m,
      ({[ "text" := VStr "hi"; "message" := VStr "Typed text: hi..." ]} : envelope)
        !! "message" = Some (VStr m)
      ∧ String.length m = (15 + Nat.min 50 (String.length "hi"))%nat
      ∧ ((String.length "hi" ≤ 50)%nat → m = "Typed text: " +:+ "hi" +:+ "...")
      ∧ m = "Typed text: " +:+ Py.slice 0 50 "hi" +:+ "...".
Proof.
  exact (type_text_message_bounded quiet "hi" 0%float startup _ _ eq_refl eq_refl).
Defined.

Lemma byte_dec_all : forallb byte_dec_ok (Z.of_nat <$> seq 0 256) = true.
Proof. vm_compute. reflexivity. Qed.

Lemma str_int_byte v :
  in_byte v →
  Py.str_int v ≠ EmptyString
  ∧ no_char in_parens (Py.str_int v) = true
  ∧ no_char is_comma (Py.str_int v) = true
  ∧ Py.int 10 (Py.strip_ws (Py.str_int v)) = Returns v
  ∧ Py.int 10 (Py.strip_ws (" " +:+ Py.str_int v)) = Returns v.
Proof.
  intros Hv. pose proof byte_dec_all as Hall.
  rewrite forallb_forall in Hall. specialize (Hall v).
  unfold in_byte in Hv.
  assert (Hin : In v (Z.of_nat <$> seq 0 256)).
  { apply list_elem_of_In, list_elem_of_fmap. exists (Z.to_nat v).
    split; [lia|]. apply list_elem_of_In, in_seq. lia. }
  specialize (Hall Hin). unfold byte_dec_ok in Hall. cbv zeta in Hall.
  apply andb_prop in Hall as [Hall Hi].
  apply andb_prop in Hall as [Hall Hc].
  apply andb_prop in Hall as [Hn Hp].
  split_and!; try done.
  - intros E. rewrite E in Hn. discriminate.
  - destruct (Py.int 10 (Py.strip_ws (Py.str_int v))) as [v1|]; [|done].
    destruct (Py.int 10 (Py.strip_ws (" " +:+ Py.str_int v))) as [v2|]; [|done].
    f_equal. lia.
  - destruct (Py.int 10 (Py.strip_ws (Py.str_int v))) as [v1|]; [|done].
    destruct (Py.int 10 (Py.strip_ws (" " +:+ Py.str_int v))) as [v2|]; [|done].
    f_equal. lia.
Qed.

Lemma no_char_cons p c s :
  no_char p (String c s) = negb (p c) && no_char p s.
Proof. reflexivity. Qed.

Lemma rstrip_by_keep p d :
  d ≠ EmptyString → no_char p d = true → Py.rstrip_by p d = d.
Proof.
  induction d as [|c d IH]; [done|]. intros _ H.
  rewrite no_char_cons in H. apply andb_prop in H as [Hc Hd].
  apply negb_true_iff in Hc. simpl.
  destruct d as [|c' d'].
  - simpl. by rewrite Hc.
  - rewrite IH by done. reflexivity.
Qed.

Lemma rstrip_by_app_keep p a d :
  d ≠ EmptyString → no_char p d = true →
  Py.rstrip_by p (a +:+ d) = a +:+ d.
Proof.
  intros Hn Hd. induction a as [|c a IH].
  - by apply rstrip_by_keep.
  - change (String c a +:+ d) with (String c (a +:+ d)). simpl. rewrite IH.
    destruct (a +:+ d) eqn:E; [|done].
    destruct a; [simpl in E; by subst | discriminate].
Qed.

Lemma rstrip_by_drop p a c :
  p c = true →
  Py.rstrip_by p (a +:+ String c EmptyString) = Py.rstrip_by p a.
Proof.
  intros Hc. induction a as [|c' a IH].
  - simpl. by rewrite Hc.
  - change (String c' a +:+ String c EmptyString)
      with (String c' (a +:+ String c EmptyString)).
    simpl. by rewrite IH.
Qed.

Lemma split_plain sep d :
  no_char (λ c, Ascii.eqb c sep) d = true → Py.split sep d = [d].
Proof.
  induction d as [|c d IH]; [done|]. rewrite no_char_cons.
  intros [Hc Hd]%andb_prop. apply negb_true_iff in Hc.
  simpl. rewrite Hc, (IH Hd). reflexivity.
Qed.

Lemma split_app sep d rest :
  no_char (λ c, Ascii.eqb c sep) d = true →
  Py.split sep (d +:+ String sep rest) = d :: Py.split sep rest.
Proof.
  induction d as [|c d IH].
  - intros _. change (EmptyString +:+ String sep rest) with (String sep rest).
    simpl. by rewrite Ascii.eqb_refl.
  - rewrite no_char_cons. intros [Hc Hd]%andb_prop. apply negb_true_iff in Hc.
    change (String c d +:+ String sep rest) with (String c (d +:+ String sep rest)).
    simpl. rewrite Hc, (IH Hd). reflexivity.
Qed.

Lemma string_app_assoc (a b c : string) : (a +:+ b) +:+ c = a +:+ b +:+ c.
Proof.
  induction a as [|x a IH]; [done|].
  change (String x ((a +:+ b) +:+ c) = String x (a +:+ b +:+ c)).
  by rewrite IH.
Qed.

(** X17. The parenthesized form reads back what was written: for channels
    from 0 to 255, the text [(r, g, b)] made of their decimal forms parses
    into exactly these three channels. *)
Theorem rgb_text_round_trip (r g b : Z) :
  in_byte r → in_byte g → in_byte b →
  rgb_tuple ("(" +:+ Py.str_int r +:+ ", " +:+ Py.str_int g +:+ ", "
             +:+ Py.str_int b +:+ ")")
  = Returns [r; g; b].
Proof.
  intros Hr Hg Hb.
  destruct (str_int_byte r Hr) as (Nr & Pr & Cr & Ir & _).
  destruct (str_int_byte g Hg) as (Ng & Pg & Cg & _ & Ig).
  destruct (str_int_byte b Hb) as (Nb & Pb & Cb & _ & Ib).
  destruct (Py.str_int r) as [|c dr'] eqn:Edr; [done|].
  set (dr := String c dr') in *.
  set (dg := Py.str_int g) in *. set (db := Py.str_int b) in *.
  assert (Pc : in_parens c = false).
  { unfold dr in Pr. rewrite no_char_cons in Pr.
    apply andb_prop in Pr as [Pc _]. by apply negb_true_iff in Pc. }
  assert (Hstrip : Py.strip "() " ("(" +:+ dr +:+ ", " +:+ dg +:+ ", " +:+ db +:+ ")")
                   = dr +:+ ", " +:+ dg +:+ ", " +:+ db).
  { unfold Py.strip, Py.strip_by.
    change (Py.lstrip_by _ ("(" +:+ dr +:+ ", " +:+ dg +:+ ", " +:+ db +:+ ")"))
      with (if in_parens c
            then Py.lstrip_by in_parens (dr' +:+ ", " +:+ dg +:+ ", " +:+ db +:+ ")")
            else dr +:+ ", " +:+ dg +:+ ", " +:+ db +:+ ")").
    rewrite Pc. rewrite <- !string_app_assoc.
    rewrite (rstrip_by_drop in_parens _ ")") by reflexivity.
    by rewrite rstrip_by_app_keep. }
  unfold rgb_tuple.
  change (Py.startswith "#" _) with false.
  change (Py.startswith "(" _) with true. cbv iota.
  rewrite Hstrip.
  change (", " +:+ dg +:+ ", " +:+ db) with (String "," (" " +:+ dg +:+ ", " +:+ db)).
  rewrite split_app by done.
  change (" " +:+ dg +:+ ", " +:+ db) with ((" " +:+ dg) +:+ String "," (" " +:+ db)).
  rewrite split_app by (by change (" " +:+ dg) with (String " " dg)).
  rewrite split_plain by (by change (" " +:+ db) with (String " " db)).
  change (length _ =? 3)%nat with true. cbv iota.
  change (tuple_of ?f [dr; " " +:+ dg; " " +:+ db])
    with (f dr ≫= λ x, (f (" " +:+ dg) ≫= λ y, (f (" " +:+ db) ≫= λ z, mret [z])
                          ≫= λ bs, mret (y :: bs)) ≫= λ bs, mret (x :: bs)).
  cbv beta. unfold mbind, outcome_bind. by rewrite Ir, Ig, Ib.
Qed.

Lemma rgb_text_round_trip_witness :
  rgb_tuple ("(" +:+ Py.str_int 255 +:+ ", " +:+ Py.str_int 0 +:+ ", "
             +:+ Py.str_int 128 +:+ ")")
  = Returns [255; 0; 128]%Z.
Proof.
  apply (rgb_text_round_trip 255 0 128); unfold in_byte; lia.
Defined.
